(** * typesafe-api: the method registry and its safe dispatcher

    A shallow embedding of [packages/api/src]: [framework.ts]
    ([ApiMethodSpec], [createApiMethod], [ApiService], [callApiMethodSafe],
    [callApiMethod]), [add.ts], [subtract.ts], [mathService.ts] and the
    middleware of [server.ts], together with the part of JavaScript and of
    zod 3 that this code runs on.

    - A JavaScript value is a [JsValue]; a number is an IEEE 754 binary64
      float, which is what Rocq's primitive [float] is.
    - An object used as a dictionary is a [gmap string _] of its own
      properties.  What an ordinary object inherits from [Object.prototype]
      is written out where the code consults it (the [in] operator and the
      property read in [callApiMethodSafe]).
    - An [async] function is a state transformer over an arbitrary world [W]
      that settles to a value or to a rejection ([Promise W A]).

    The type-level helpers [inferInputType] and [inferOutputType] have no
    run-time content.  Koa itself (how a settled middleware becomes an HTTP
    response) and the client, which is a thin wrapper of [fetch], are
    outside the model. *)

From Stdlib Require Import Floats.
From stdpp Require Import gmap strings list fin_maps.

Set Warnings "-register-all".
Set Default Proof Using "Type".

(** ** JavaScript values *)

Abbreviation number := float.

(** The values that reach the dispatcher as [input: unknown]: what
    [JSON.parse] produces, and [undefined] (a request body without an
    [input] member).  An object is the finite map of its own properties. *)
Inductive JsValue : Type :=
  | JsUndefined
  | JsNull
  | JsBoolean (b : bool)
  | JsNumber (x : number)
  | JsString (s : string)
  | JsArray (items : list JsValue)
  | JsObject (properties : gmap string JsValue).

(** [typeof value === "undefined"]. *)
Definition is_undefined (value : JsValue) : bool :=
  match value with JsUndefined => true | _ => false end.

(** What a [throw] statement or a rejected promise carries. *)
Inductive JsError : Type :=
  | Error (message : string)        (* new Error(message) *)
  | TypeError (message : string)    (* raised by the engine *)
  | Thrown (value : JsValue).       (* any other thrown value *)

(** The own property names of [Object.prototype] (Node 18); every ordinary
    object, such as one written as an object literal, inherits them. *)
Definition Object_prototype : list string :=
  [ "constructor"; "__defineGetter__"; "__defineSetter__"; "hasOwnProperty";
    "__lookupGetter__"; "__lookupSetter__"; "isPrototypeOf";
    "propertyIsEnumerable"; "toString"; "valueOf"; "__proto__";
    "toLocaleString" ].

(** ** Promises and async functions *)

Inductive Settled (A : Type) : Type :=
  | Fulfilled (value : A)
  | Rejected (reason : JsError).
Arguments Fulfilled {A} value.
Arguments Rejected {A} reason.

(** A computation that may read and write the world [W] (whatever an
    implementation touches: a database, a counter, a log) and settles. *)
Definition Promise (W A : Type) : Type := W → Settled A * W.

Module Promise.
Definition resolve {W A} (value : A) : Promise W A :=
  λ w, (Fulfilled value, w).

Definition reject {W A} (reason : JsError) : Promise W A :=
  λ w, (Rejected reason, w).

(** [await p] followed by the rest of the async function, [k]. *)
Definition bind {W A B} (p : Promise W A) (k : A → Promise W B) : Promise W B :=
  λ w, match p w with
       | (Fulfilled value, w') => k value w'
       | (Rejected reason, w') => (Rejected reason, w')
       end.
End Promise.

(** [throw e] inside an async function rejects the promise it returns. *)
Abbreviation throw := Promise.reject (only parsing).

Notation "'await' x ← p ; k" := (Promise.bind p (λ x, k))
  (at level 20, x name, p at level 100, k at level 200, only parsing).

(** ** zod: what a schema returns *)

Inductive ZodParsedType : Set :=
  | zpt_string | zpt_nan | zpt_number | zpt_integer | zpt_float | zpt_boolean
  | zpt_date | zpt_bigint | zpt_symbol | zpt_function | zpt_undefined
  | zpt_null | zpt_array | zpt_object | zpt_unknown | zpt_promise | zpt_void
  | zpt_never | zpt_map | zpt_set.

(** An [invalid_type] issue, with its members in the order zod creates them. *)
Module ZodIssue.
Record t : Type := invalid_type {
  expected : ZodParsedType;
  received : ZodParsedType;
  path : list string;
  message : string
}.
End ZodIssue.
Abbreviation ZodIssue := ZodIssue.t.

Module ZodError.
Record t : Type := mk {
  issues : list ZodIssue;
  message : string
}.
End ZodError.
Abbreviation ZodError := ZodError.t.

(** [SafeParseReturnType]: [{success: true, data}] or [{success: false, error}]. *)
Inductive SafeParseReturnType : Type :=
  | SafeParseSuccess (data : JsValue)
  | SafeParseError (error : ZodError).

(** [Schema<Input>], as far as the framework uses it: its [safeParse]. *)
Module Schema.
Record t : Type := mk { safeParse : JsValue → SafeParseReturnType }.
End Schema.
Abbreviation Schema := Schema.t.

(** ** framework.ts *)

(** Represents the definition of an API method. *)
Module ApiMethodSpec.
Record t (W : Type) : Type := mk {
  input : Schema;
  method : JsValue → Promise W JsValue
}.
Arguments mk {W} input method.
Arguments input {W} t.
Arguments method {W} t.
End ApiMethodSpec.
Abbreviation ApiMethodSpec := ApiMethodSpec.t.

(** Convenience method to constrain the types in the right way. *)
Definition createApiMethod {W} (spec : ApiMethodSpec W) : ApiMethodSpec W := spec.

(** [{ [method: string]: ApiMethodSpec<any, any> }]: the own properties of
    the service object, which is an ordinary object (an object literal, as
    [mathService] is) and so inherits from [Object.prototype]. *)
Abbreviation ApiService W := (gmap string (ApiMethodSpec W)).

(** [key in service].  The operator walks the prototype chain: it holds of an
    own property and of every property inherited from [Object.prototype]. *)
Definition has_property {W} (key : string) (service : ApiService W) : bool :=
  bool_decide (is_Some (service !! key)) || bool_decide (key ∈ Object_prototype).

(** The message V8 gives the [TypeError] raised by [spec.input.safeParse]
    when [spec.input] is [undefined]. *)
Definition safeParse_of_undefined : string :=
  "Cannot read properties of undefined (reading 'safeParse')".

(** Calls the given API method if possible. *)
Definition callApiMethodSafe {W} (service : ApiService W) (method : string)
    (input : JsValue) : Promise W JsValue :=
  (* make sure the method is valid *)
  if negb (has_property method service) then
    throw (Error ("Unrecognized method name " +:+ method))
  else
    match service !! method with
    | Some spec =>
        (* validate the input *)
        let inputValidation := Schema.safeParse (ApiMethodSpec.input spec) input in
        match inputValidation with
        | SafeParseError error =>
            throw (Error ("Validation failed: " +:+ ZodError.message error))
        | SafeParseSuccess data =>
            (* actually call the method and return the result *)
            await result ← ApiMethodSpec.method spec data;
            Promise.resolve result
        end
    | None =>
        (* [service[method]] is a member of [Object.prototype]: a built-in
           function, or [Object.prototype] itself for [__proto__].  Neither
           has an [input] property, so [spec.input] is [undefined]. *)
        throw (TypeError safeParse_of_undefined)
    end.

(** Calls the given API method if possible. Convenience method to make
    testing nicer.

    Its body is a call of [callApiMethod] itself, with the same arguments.
    [stack] bounds the depth of nested calls the engine allows; the result
    is [None] when the bound is reached before any call has settled. *)
Fixpoint callApiMethod {W} (stack : nat) (service : ApiService W)
    (method : string) (input : JsValue) : W → option (Settled JsValue) * W :=
  match stack with
  | 0 => λ w, (None, w)
  | S stack' => callApiMethod stack' service method input
  end.

(** ** zod 3: [z.number()], [z.string()], [z.any()] and [z.object(shape)]

    The schemas are library code; this is the behaviour of zod 3 for the
    constructors the repository uses, with no checks, no coercion and the
    default error map. *)

(** [ZodParsedType] names, as they appear in issues and messages. *)
Definition ZodParsedType_name (t : ZodParsedType) : string :=
  match t with
  | zpt_string => "string" | zpt_nan => "nan" | zpt_number => "number"
  | zpt_integer => "integer" | zpt_float => "float" | zpt_boolean => "boolean"
  | zpt_date => "date" | zpt_bigint => "bigint" | zpt_symbol => "symbol"
  | zpt_function => "function" | zpt_undefined => "undefined"
  | zpt_null => "null" | zpt_array => "array" | zpt_object => "object"
  | zpt_unknown => "unknown" | zpt_promise => "promise" | zpt_void => "void"
  | zpt_never => "never" | zpt_map => "map" | zpt_set => "set"
  end.

(** [getParsedType(data)].  zod reports an object as a promise when its
    [then] and [catch] are functions; no [JsValue] holds a function. *)
Definition getParsedType (data : JsValue) : ZodParsedType :=
  match data with
  | JsUndefined => zpt_undefined
  | JsNull => zpt_null
  | JsBoolean _ => zpt_boolean
  | JsNumber x => if PrimFloat.is_nan x then zpt_nan else zpt_number
  | JsString _ => zpt_string
  | JsArray _ => zpt_array
  | JsObject _ => zpt_object
  end.

(** The default error map on an [invalid_type] issue. *)
Definition defaultErrorMap (expected received : ZodParsedType) : string :=
  match received with
  | zpt_undefined => "Required"
  | _ => "Expected " +:+ ZodParsedType_name expected +:+ ", received "
           +:+ ZodParsedType_name received
  end.

(** [addIssueToContext(ctx, {code: invalid_type, expected, received})]. *)
Definition makeIssue (path : list string) (expected received : ZodParsedType)
    : ZodIssue :=
  ZodIssue.invalid_type expected received path (defaultErrorMap expected received).

(** *** [ZodError.message]: [JSON.stringify(this.issues, replacer, 2)] *)

Module JSON.
Definition hex_digit (n : N) : Ascii.ascii :=
  Ascii.ascii_of_N (if (n <? 10)%N then 48 + n else 87 + n).

Definition dquote : string := String (Ascii.ascii_of_N 34) EmptyString.
Definition backslash : string := String (Ascii.ascii_of_N 92) EmptyString.
Definition newline : string := String (Ascii.ascii_of_N 10) EmptyString.

(** [QuoteJSONString], on the bytes of a UTF-8 string. *)
Definition quote_char (c : Ascii.ascii) : string :=
  let n := Ascii.N_of_ascii c in
  if (n =? 34)%N then backslash +:+ dquote
  else if (n =? 92)%N then backslash +:+ backslash
  else if (n =? 8)%N then backslash +:+ "b"
  else if (n =? 9)%N then backslash +:+ "t"
  else if (n =? 10)%N then backslash +:+ "n"
  else if (n =? 12)%N then backslash +:+ "f"
  else if (n =? 13)%N then backslash +:+ "r"
  else if (n <? 32)%N then
    backslash +:+ "u00"
      +:+ String (hex_digit (n / 16)) (String (hex_digit (n mod 16)) EmptyString)
  else String c EmptyString.

Fixpoint quote_chars (s : string) : string :=
  match s with
  | EmptyString => EmptyString
  | String c rest => quote_char c +:+ quote_chars rest
  end.

Definition quote (s : string) : string := dquote +:+ quote_chars s +:+ dquote.

(** [",\n" + indent] between the items, [indent] being a run of spaces. *)
Fixpoint join (indent : string) (items : list string) : string :=
  match items with
  | [] => EmptyString
  | [item] => item
  | item :: rest => item +:+ "," +:+ newline +:+ indent +:+ join indent rest
  end.

(** An array whose items are already serialized; [indent] is the
    indentation of the line the array starts on. *)
Definition array (indent : string) (items : list string) : string :=
  match items with
  | [] => "[]"
  | _ => "[" +:+ newline +:+ indent +:+ "  " +:+ join (indent +:+ "  ") items
           +:+ newline +:+ indent +:+ "]"
  end.

Definition member (key value : string) : string := quote key +:+ ": " +:+ value.

Definition object (indent : string) (members : list string) : string :=
  match members with
  | [] => "{}"
  | _ => "{" +:+ newline +:+ indent +:+ "  " +:+ join (indent +:+ "  ") members
           +:+ newline +:+ indent +:+ "}"
  end.

Definition issue (i : ZodIssue) : string :=
  object "  "
    [ member "code" (quote "invalid_type");
      member "expected" (quote (ZodParsedType_name (ZodIssue.expected i)));
      member "received" (quote (ZodParsedType_name (ZodIssue.received i)));
      member "path" (array "    " (quote <$> ZodIssue.path i));
      member "message" (quote (ZodIssue.message i)) ].

Definition stringify_issues (issues : list ZodIssue) : string :=
  array EmptyString (issue <$> issues).
End JSON.

(** [new ZodError(issues)]. *)
Definition new_ZodError (issues : list ZodIssue) : ZodError :=
  ZodError.mk issues (JSON.stringify_issues issues).

Module z.

(** What [_parse] returns: a valid value, or [INVALID]. *)
Inductive ParseReturnType : Type :=
  | OK (value : JsValue)
  | INVALID.

(** A schema: [_parse] at a path, returning the issues it adds to the
    context together with its result. *)
Record ZodType : Type := mk {
  _parse : list string → JsValue → list ZodIssue * ParseReturnType
}.

(** [schema.safeParse(data)], through [handleResult]. *)
Definition safeParse (schema : ZodType) (data : JsValue) : SafeParseReturnType :=
  match _parse schema [] data with
  | (_, OK value) => SafeParseSuccess value
  | (issues, INVALID) => SafeParseError (new_ZodError issues)
  end.

Definition invalid_type (path : list string) (expected : ZodParsedType)
    (data : JsValue) : list ZodIssue * ParseReturnType :=
  ([makeIssue path expected (getParsedType data)], INVALID).

(** [z.number()]. *)
Definition number : ZodType :=
  {| _parse path data :=
       match getParsedType data with
       | zpt_number => ([], OK data)
       | _ => invalid_type path zpt_number data
       end |}.

(** One entry of [pairs] in [ZodObject._parse]: the key, what the member's
    schema returned (with the issues it added), and [alwaysSet]. *)
Definition ParsedPair : Type := string * (list ZodIssue * ParseReturnType) * bool.

(** [ParseStatus.mergeObjectSync]: the object of the parsed members, unless
    one of them is invalid.  A member is set when its value is not
    [undefined] or its key is [in] the data; [__proto__] is never set. *)
Fixpoint mergeObjectSync (pairs : list ParsedPair)
    (finalObject : gmap string JsValue) : ParseReturnType :=
  match pairs with
  | [] => OK (JsObject finalObject)
  | (_, (_, INVALID), _) :: _ => INVALID
  | (key, (_, OK value), alwaysSet) :: rest =>
      mergeObjectSync rest
        (if bool_decide (key ≠ "__proto__")
            && (negb (is_undefined value) || alwaysSet)
         then <[key := value]> finalObject else finalObject)
  end.

(** The entry for one member of the shape: its schema is run on
    [data[key]], at the path extended with [key].  The shape keys of this
    repository are not names of [Object.prototype], so [data[key]] is the
    own property, or [undefined]. *)
Definition parsePair (path : list string) (properties : gmap string JsValue)
    (member : string * ZodType) : ParsedPair :=
  let '(key, keyValidator) := member in
  let value := default JsUndefined (properties !! key) in
  (key, _parse keyValidator (path ++ [key]) value,
   bool_decide (is_Some (properties !! key))).

(** [z.object(shape)] with the default [strip] policy: the members of
    [shape] are parsed in order and all their issues are kept; keys of
    [data] outside [shape] are not read. *)
Definition object (shape : list (string * ZodType)) : ZodType :=
  {| _parse path data :=
       match data with
       | JsObject properties =>
           let pairs := parsePair path properties <$> shape in
           (mjoin ((λ pair : ParsedPair, pair.1.2.1) <$> pairs),
            mergeObjectSync pairs ∅)
       | _ => invalid_type path zpt_object data
       end |}.

(** [z.any()]. *)
Definition any : ZodType :=
  {| _parse path data := ([], OK data) |}.

(** [schema.parse(data)]: the parsed data, or the [ZodError] it throws. *)
Definition parse (schema : ZodType) (data : JsValue) : JsValue + ZodError :=
  match safeParse schema data with
  | SafeParseSuccess value => inl value
  | SafeParseError error => inr error
  end.

(** [z.string()]. *)
Definition string : ZodType :=
  {| _parse path data :=
       match getParsedType data with
       | zpt_string => ([], OK data)
       | _ => invalid_type path zpt_string data
       end |}.

End z.

(** A zod schema where the framework expects a [Schema]. *)
Coercion schema_of_zod (schema : z.ZodType) : Schema :=
  Schema.mk (z.safeParse schema).

(** ** add.ts, subtract.ts, mathService.ts *)

(** [input.key] where TypeScript gives it the type [number].  The property
    is a number whenever [input] has passed the method's schema
    ([add_input_typed], [subtract_input_typed]); on any other value the read
    is given as NaN. *)
Definition number_property (input : JsValue) (key : string) : number :=
  match input with
  | JsObject properties =>
      match properties !! key with
      | Some (JsNumber x) => x
      | _ => nan
      end
  | _ => nan
  end.

Definition add {W} : ApiMethodSpec W :=
  createApiMethod {|
    ApiMethodSpec.input := z.object [("augend", z.number); ("addend", z.number)];
    ApiMethodSpec.method := λ input,
      Promise.resolve
        (JsObject {[ "sum" :=
           JsNumber (number_property input "augend" + number_property input "addend")%float ]})
  |}.

Definition subtract {W} : ApiMethodSpec W :=
  createApiMethod {|
    ApiMethodSpec.input := z.object [("minuend", z.number); ("subtrahend", z.number)];
    ApiMethodSpec.method := λ input,
      Promise.resolve
        (JsObject {[ "difference" :=
           JsNumber (number_property input "minuend" - number_property input "subtrahend")%float ]})
  |}.

Definition mathService {W} : ApiService W :=
  {[ "add" := add; "subtract" := subtract ]}.

(** ** server.ts *)

Definition bodySpec : z.ZodType :=
  z.object [("method", z.string); ("input", z.any)].

(** [body.key], for a value that has passed an object schema and a key that
    is not a name of [Object.prototype]: the own property, or [undefined]. *)
Definition property (body : JsValue) (key : string) : JsValue :=
  match body with
  | JsObject properties => default JsUndefined (properties !! key)
  | _ => JsUndefined
  end.

(** [body.key] where TypeScript gives it the type [string]; it is a string
    whenever [body] has passed [bodySpec] ([bodySpec_parse]). *)
Definition string_property (body : JsValue) (key : string) : string :=
  match property body key with
  | JsString s => s
  | _ => EmptyString
  end.

(** The Koa context, as far as the middleware uses it: [ctx.request.body],
    which the body parser has filled in, and [ctx.body]. *)
Module Context.
Record t : Type := mk {
  request_body : JsValue;
  body : JsValue
}.
End Context.
Abbreviation Context := Context.t.

(** What the middleware's promise is rejected with: the [ZodError] that
    [bodySpec.parse] throws, or what [callApiMethodSafe] is rejected with. *)
Inductive MiddlewareError : Type :=
  | InvalidBody (error : ZodError)
  | CallRejected (reason : JsError).

(** How the middleware settles: fulfilled, leaving the context [ctx], or
    rejected. *)
Inductive MiddlewareSettled : Type :=
  | Completed (ctx : Context)
  | Failed (error : MiddlewareError).

(** The middleware given to [app.use]. *)
Definition middleware {W} (ctx : Context) : W → MiddlewareSettled * W :=
  λ w,
    match z.parse bodySpec (Context.request_body ctx) with
    | inr error => (Failed (InvalidBody error), w)
    | inl body =>
        match callApiMethodSafe mathService (string_property body "method")
                (property body "input") w with
        | (Fulfilled result, w') =>
            (Completed (Context.mk (Context.request_body ctx) result), w')
        | (Rejected reason, w') => (Failed (CallRejected reason), w')
        end
    end.

(** ** Observing invocations

    [spyOn service] is [service] with every implementation wrapped so that
    each call is recorded, with the name it is registered under and the
    argument it receives, before the implementation runs. *)

Definition Call : Type := string * JsValue.

Definition spy {W} (name : string) (spec : ApiMethodSpec W)
    : ApiMethodSpec (list Call * W) :=
  {| ApiMethodSpec.input := ApiMethodSpec.input spec;
     ApiMethodSpec.method := λ data '(calls, w),
       let '(outcome, w') := ApiMethodSpec.method spec data w in
       (outcome, (calls ++ [(name, data)], w')) |}.

Definition spyOn {W} (service : ApiService W) : ApiService (list Call * W) :=
  map_imap (λ name spec, Some (spy name spec)) service.

(** A service with a side effect, for the examples: [tick] takes a number
    and counts its calls in the world. *)
Definition tick : ApiMethodSpec nat :=
  createApiMethod {|
    ApiMethodSpec.input := z.number;
    ApiMethodSpec.method := λ input count, (Fulfilled input, S count)
  |}.

Definition counterService : ApiService nat := {[ "tick" := tick ]}.

(** * Properties of the dispatcher *)

Section dispatch.
Context {W : Type}.
Implicit Types (service : ApiService W) (spec : ApiMethodSpec W).
Implicit Types (method : string) (input data : JsValue) (w : W).

Lemma await_resolve {A} (p : Promise W A) w :
  Promise.bind p Promise.resolve w = p w.
Proof. unfold Promise.bind. by destruct (p w) as [[value|reason] w']. Qed.

Lemma has_property_own service method spec :
  service !! method = Some spec → has_property method service = true.
Proof.
  intros Hspec. unfold has_property.
  rewrite bool_decide_true; [done | by rewrite Hspec].
Qed.

Lemma has_property_false service method :
  has_property method service = false ↔
  service !! method = None ∧ method ∉ Object_prototype.
Proof.
  unfold has_property. rewrite orb_false_iff, !bool_decide_eq_false.
  by rewrite <- eq_None_not_Some.
Qed.

(** A name the [in] test rejects. *)
Lemma callApiMethodSafe_unrecognized service method input w :
  has_property method service = false →
  callApiMethodSafe service method input w
  = (Rejected (Error ("Unrecognized method name " +:+ method)), w).
Proof. intros Hin. unfold callApiMethodSafe. by rewrite Hin. Qed.

(** A registered name: validation, then the implementation. *)
Lemma callApiMethodSafe_registered service method spec input w :
  service !! method = Some spec →
  callApiMethodSafe service method input w
  = match Schema.safeParse (ApiMethodSpec.input spec) input with
    | SafeParseError error =>
        (Rejected (Error ("Validation failed: " +:+ ZodError.message error)), w)
    | SafeParseSuccess data => ApiMethodSpec.method spec data w
    end.
Proof.
  intros Hspec. unfold callApiMethodSafe.
  rewrite (has_property_own _ _ _ Hspec), Hspec. simpl.
  destruct (Schema.safeParse _ input); [apply await_resolve | done].
Qed.

(** A name that is only inherited from [Object.prototype]. *)
Lemma callApiMethodSafe_inherited service method input w :
  service !! method = None → method ∈ Object_prototype →
  callApiMethodSafe service method input w
  = (Rejected (TypeError safeParse_of_undefined), w).
Proof.
  intros Hnone Hin. unfold callApiMethodSafe, has_property.
  rewrite Hnone, (bool_decide_true (_ ∈ _)) by done.
  by rewrite orb_true_r.
Qed.

Lemma spyOn_lookup service method :
  spyOn service !! method = spy method <$> service !! method.
Proof. unfold spyOn. rewrite map_lookup_imap. by destruct (service !! method). Qed.

End dispatch.

Section spies.
Context {W : Type}.
Implicit Types (service : ApiService W) (spec : ApiMethodSpec W).
Implicit Types (method : string) (input data : JsValue) (w : W).

(** What the spy records for a registered name: nothing when validation
    fails, otherwise the one call of the implementation. *)
Lemma callApiMethodSafe_spyOn service method spec input calls w :
  service !! method = Some spec →
  callApiMethodSafe (spyOn service) method input (calls, w)
  = match Schema.safeParse (ApiMethodSpec.input spec) input with
    | SafeParseError error =>
        (Rejected (Error ("Validation failed: " +:+ ZodError.message error)),
         (calls, w))
    | SafeParseSuccess data =>
        ((ApiMethodSpec.method spec data w).1,
         (calls ++ [(method, data)], (ApiMethodSpec.method spec data w).2))
    end.
Proof.
  intros Hspec.
  rewrite (callApiMethodSafe_registered _ _ (spy method spec)); cycle 1.
  { by rewrite spyOn_lookup, Hspec. }
  simpl. destruct (Schema.safeParse _ input); [| done].
  by destruct (ApiMethodSpec.method spec data w).
Qed.

End spies.

(** * Properties of the schemas *)

Section schemas.
Implicit Types (properties : gmap string JsValue) (a b : number).

(** An object schema reads its input at the keys of its shape only. *)
Lemma parsePair_ext path (properties properties' : gmap string JsValue) member :
  properties !! member.1 = properties' !! member.1 →
  z.parsePair path properties member = z.parsePair path properties' member.
Proof. destruct member as [key keyValidator]; simpl. by intros ->. Qed.

Lemma object_parse_ext shape path (properties properties' : gmap string JsValue) :
  (∀ key, key ∈ shape.*1 → properties !! key = properties' !! key) →
  z._parse (z.object shape) path (JsObject properties)
  = z._parse (z.object shape) path (JsObject properties').
Proof.
  intros Hagree. unfold z.object; cbn [z._parse].
  assert (z.parsePair path properties <$> shape
          = z.parsePair path properties' <$> shape) as ->; [| done].
  apply list_fmap_ext; intros i member Hmember.
  apply parsePair_ext, Hagree, list_elem_of_fmap.
  exists member; split; [done |]. by eapply list_elem_of_lookup_2.
Qed.

(** What an object schema returns has no key outside its shape. *)
Lemma mergeObjectSync_dom pairs finalObject value :
  z.mergeObjectSync pairs finalObject = z.OK value →
  ∃ properties, value = JsObject properties
    ∧ dom properties ⊆ dom finalObject ∪ list_to_set (pairs.*1.*1).
Proof.
  revert finalObject. induction pairs as [|[[key [issues [member|]]] alwaysSet] pairs IH];
    intros finalObject; simpl.
  - intros [= <-]. exists finalObject. split; [done | apply union_subseteq_l].
  - intros Hmerge. destruct (IH _ Hmerge) as (properties & -> & Hdom).
    exists properties; split; [done |].
    etrans; [exact Hdom |]. intros name. rewrite !elem_of_union.
    destruct (_ && _);
      [rewrite dom_insert, elem_of_union, elem_of_singleton |]; tauto.
  - discriminate.
Qed.

Lemma safeParse_object_strips shape (properties : gmap string JsValue) data :
  z.safeParse (z.object shape) (JsObject properties) = SafeParseSuccess data →
  ∃ parsed, data = JsObject parsed ∧ dom parsed ⊆ list_to_set (shape.*1).
Proof.
  unfold z.safeParse, z.object; cbn [z._parse].
  destruct (z.mergeObjectSync _ _) as [value|] eqn:Hmerge; [| done].
  intros [= <-]. destruct (mergeObjectSync_dom _ _ _ Hmerge) as (parsed & -> & Hdom).
  exists parsed; split; [done |].
  rewrite dom_empty_L, (left_id_L ∅ (∪)) in Hdom.
  rewrite <- list_fmap_compose in Hdom.
  assert ((fst ∘ fst ∘ z.parsePair [] properties) <$> shape = shape.*1) as Heq.
  { apply list_fmap_ext. by intros i [key keyValidator] _. }
  rewrite <-Heq. rewrite list_fmap_compose. done.
Qed.

(** [z.number()] accepts exactly the numbers other than NaN, unchanged. *)
Lemma number_parse_number path a :
  PrimFloat.is_nan a = false →
  z._parse z.number path (JsNumber a) = ([], z.OK (JsNumber a)).
Proof. intros Ha. unfold z.number; cbn [z._parse getParsedType]. by rewrite Ha. Qed.

Lemma number_parse_OK path data issues value :
  z._parse z.number path data = (issues, z.OK value) →
  ∃ a, data = JsNumber a ∧ value = JsNumber a ∧ PrimFloat.is_nan a = false.
Proof.
  unfold z.number, z.invalid_type; cbn [z._parse].
  destruct data as [| |?|a|?|?|?]; cbn [getParsedType]; try discriminate.
  destruct (PrimFloat.is_nan a) eqn:Ha; [discriminate |].
  intros [= <- <-]. by exists a.
Qed.

(** A shape of two numbers accepts exactly the objects that hold a number
    at both keys, and returns the object of these two properties. *)
Lemma safeParse_number_pair key1 key2 properties a b :
  key1 ≠ "__proto__" → key2 ≠ "__proto__" →
  properties !! key1 = Some (JsNumber a) → properties !! key2 = Some (JsNumber b) →
  PrimFloat.is_nan a = false → PrimFloat.is_nan b = false →
  z.safeParse (z.object [(key1, z.number); (key2, z.number)]) (JsObject properties)
  = SafeParseSuccess (JsObject (<[key2 := JsNumber b]> (<[key1 := JsNumber a]> ∅))).
Proof.
  intros H1 H2 Ha Hb Hnana Hnanb.
  unfold z.safeParse, z.object; cbn [z._parse fmap list_fmap z.parsePair].
  rewrite Ha, Hb; cbn [default from_option id]. rewrite !number_parse_number by done.
  cbn [z.mergeObjectSync is_undefined negb orb].
  by rewrite !bool_decide_true, !andb_true_r by done.
Qed.

Lemma safeParse_number_pair_inv key1 key2 input data :
  z.safeParse (z.object [(key1, z.number); (key2, z.number)]) input
  = SafeParseSuccess data →
  ∃ properties a b,
    input = JsObject properties
    ∧ properties !! key1 = Some (JsNumber a)
    ∧ properties !! key2 = Some (JsNumber b)
    ∧ PrimFloat.is_nan a = false ∧ PrimFloat.is_nan b = false.
Proof.
  unfold z.safeParse, z.object, z.invalid_type.
  destruct input as [| |?|?|?|?|properties]; cbn [z._parse]; try discriminate.
  cbn [fmap list_fmap z.parsePair].
  destruct (z._parse z.number _ (default _ (properties !! key1))) as [issues1 [value1|]] eqn:Hparse1;
    cbn [z.mergeObjectSync]; [| discriminate].
  destruct (z._parse z.number _ (default _ (properties !! key2))) as [issues2 [value2|]] eqn:Hparse2;
    cbn [z.mergeObjectSync]; [| discriminate].
  intros _.
  apply number_parse_OK in Hparse1 as (a & Ha & _ & Hnana).
  apply number_parse_OK in Hparse2 as (b & Hb & _ & Hnanb).
  exists properties, a, b. repeat split; try done.
  - destruct (properties !! key1); by simplify_eq/=.
  - destruct (properties !! key2); by simplify_eq/=.
Qed.

End schemas.

(** * Properties of the math service *)

Section math.
Context {W : Type}.
Implicit Types (properties : gmap string JsValue) (a b : number) (w : W).

Lemma mathService_add : (mathService (W:=W)) !! "add" = Some add.
Proof. reflexivity. Qed.

Lemma mathService_subtract : (mathService (W:=W)) !! "subtract" = Some subtract.
Proof. reflexivity. Qed.

(** No key of the schemas' shapes is a name of [Object.prototype]. *)
Lemma shape_keys_not_inherited :
  Forall (λ key, key ∉ Object_prototype)
    ["augend"; "addend"; "minuend"; "subtrahend"].
Proof. by apply (bool_decide_unpack _). Qed.

(** What passes the schema of [add] has the static type of the
    implementation's parameter: [{augend: number, addend: number}]. *)
Lemma add_input_typed input data :
  Schema.safeParse (ApiMethodSpec.input (add (W:=W))) input = SafeParseSuccess data →
  ∃ properties a b,
    input = JsObject properties
    ∧ properties !! "augend" = Some (JsNumber a)
    ∧ properties !! "addend" = Some (JsNumber b)
    ∧ data = JsObject {[ "augend" := JsNumber a; "addend" := JsNumber b ]}.
Proof.
  cbn [add createApiMethod ApiMethodSpec.input schema_of_zod Schema.safeParse].
  intros Hparse.
  destruct (safeParse_number_pair_inv _ _ _ _ Hparse)
    as (properties & a & b & -> & Ha & Hb & Hnana & Hnanb).
  exists properties, a, b. repeat split; try done.
  rewrite (safeParse_number_pair _ _ _ a b) in Hparse by done.
  by injection Hparse as <-.
Qed.

Lemma subtract_input_typed input data :
  Schema.safeParse (ApiMethodSpec.input (subtract (W:=W))) input = SafeParseSuccess data →
  ∃ properties a b,
    input = JsObject properties
    ∧ properties !! "minuend" = Some (JsNumber a)
    ∧ properties !! "subtrahend" = Some (JsNumber b)
    ∧ data = JsObject {[ "minuend" := JsNumber a; "subtrahend" := JsNumber b ]}.
Proof.
  cbn [subtract createApiMethod ApiMethodSpec.input schema_of_zod Schema.safeParse].
  intros Hparse.
  destruct (safeParse_number_pair_inv _ _ _ _ Hparse)
    as (properties & a & b & -> & Ha & Hb & Hnana & Hnanb).
  exists properties, a, b. repeat split; try done.
  rewrite (safeParse_number_pair _ _ _ a b) in Hparse by done.
  by injection Hparse as <-.
Qed.

(** The implementations, on a value of their parameter's type. *)
Lemma add_method a b w :
  ApiMethodSpec.method add
    (JsObject {[ "augend" := JsNumber a; "addend" := JsNumber b ]}) w
  = (Fulfilled (JsObject {[ "sum" := JsNumber (a + b) ]}), w).
Proof. reflexivity. Qed.

Lemma subtract_method a b w :
  ApiMethodSpec.method subtract
    (JsObject {[ "minuend" := JsNumber a; "subtrahend" := JsNumber b ]}) w
  = (Fulfilled (JsObject {[ "difference" := JsNumber (a - b) ]}), w).
Proof. reflexivity. Qed.

(** A call with numbers at the declared properties. *)
Lemma add_call properties a b w :
  properties !! "augend" = Some (JsNumber a) →
  properties !! "addend" = Some (JsNumber b) →
  PrimFloat.is_nan a = false → PrimFloat.is_nan b = false →
  callApiMethodSafe mathService "add" (JsObject properties) w
  = (Fulfilled (JsObject {[ "sum" := JsNumber (a + b) ]}), w).
Proof.
  intros Ha Hb Hnana Hnanb.
  rewrite (callApiMethodSafe_registered _ _ _ _ _ mathService_add).
  cbn [add createApiMethod ApiMethodSpec.input schema_of_zod Schema.safeParse].
  by rewrite (safeParse_number_pair _ _ _ a b).
Qed.

Lemma subtract_call properties a b w :
  properties !! "minuend" = Some (JsNumber a) →
  properties !! "subtrahend" = Some (JsNumber b) →
  PrimFloat.is_nan a = false → PrimFloat.is_nan b = false →
  callApiMethodSafe mathService "subtract" (JsObject properties) w
  = (Fulfilled (JsObject {[ "difference" := JsNumber (a - b) ]}), w).
Proof.
  intros Ha Hb Hnana Hnanb.
  rewrite (callApiMethodSafe_registered _ _ _ _ _ mathService_subtract).
  cbn [subtract createApiMethod ApiMethodSpec.input schema_of_zod Schema.safeParse].
  by rewrite (safeParse_number_pair _ _ _ a b).
Qed.

(** The schemas read nothing but their declared properties. *)
Lemma add_safeParse_ext properties properties' :
  properties !! "augend" = properties' !! "augend" →
  properties !! "addend" = properties' !! "addend" →
  Schema.safeParse (ApiMethodSpec.input (add (W:=W))) (JsObject properties)
  = Schema.safeParse (ApiMethodSpec.input (add (W:=W))) (JsObject properties').
Proof.
  intros Haugend Haddend.
  cbn [add createApiMethod ApiMethodSpec.input schema_of_zod Schema.safeParse].
  unfold z.safeParse. rewrite (object_parse_ext _ _ properties properties'); [done |].
  intros key Hkey. cbn in Hkey.
  apply elem_of_cons in Hkey as [-> | Hkey]; [done |].
  apply elem_of_cons in Hkey as [-> | Hkey]; [done |].
  by apply elem_of_nil in Hkey.
Qed.

Lemma subtract_safeParse_ext properties properties' :
  properties !! "minuend" = properties' !! "minuend" →
  properties !! "subtrahend" = properties' !! "subtrahend" →
  Schema.safeParse (ApiMethodSpec.input (subtract (W:=W))) (JsObject properties)
  = Schema.safeParse (ApiMethodSpec.input (subtract (W:=W))) (JsObject properties').
Proof.
  intros Hminuend Hsubtrahend.
  cbn [subtract createApiMethod ApiMethodSpec.input schema_of_zod Schema.safeParse].
  unfold z.safeParse. rewrite (object_parse_ext _ _ properties properties'); [done |].
  intros key Hkey. cbn in Hkey.
  apply elem_of_cons in Hkey as [-> | Hkey]; [done |].
  apply elem_of_cons in Hkey as [-> | Hkey]; [done |].
  by apply elem_of_nil in Hkey.
Qed.

End math.

(** * The claims about the dispatcher *)

Section outcomes.
Context {W : Type}.
Implicit Types (service : ApiService W) (spec : ApiMethodSpec W).
Implicit Types (method : string) (input data : JsValue) (w : W).

(** A name that is neither registered nor inherited is rejected as
    unrecognized. *)
Lemma callApiMethodSafe_unknown service method input w :
  service !! method = None → method ∉ Object_prototype →
  callApiMethodSafe service method input w
  = (Rejected (Error ("Unrecognized method name " +:+ method)), w).
Proof.
  intros Hnone Hnot. apply callApiMethodSafe_unrecognized.
  by apply has_property_false.
Qed.

(** Scenario C: no [multiply] is registered on the math service. *)
Lemma callApiMethodSafe_multiply w :
  callApiMethodSafe mathService "multiply"
    (JsObject {[ "a" := JsNumber 1; "b" := JsNumber 2 ]}) w
  = (Rejected (Error "Unrecognized method name multiply"), w).
Proof. reflexivity. Qed.

(** C1, at the name [toString]: it is not a key of the math service, yet the
    [in] test accepts it because the service object inherits it from
    [Object.prototype]; the call is rejected with a [TypeError], not with
    the error [Unrecognized method name toString]. *)
Theorem callApiMethodSafe_toString input w :
  (mathService (W:=W)) !! "toString" = None
  ∧ callApiMethodSafe mathService "toString" input w
    = (Rejected (TypeError "Cannot read properties of undefined (reading 'safeParse')"), w)
  ∧ callApiMethodSafe mathService "toString" input w
    ≠ (Rejected (Error "Unrecognized method name toString"), w).
Proof.
  assert (Hrun : callApiMethodSafe mathService "toString" input w
    = (Rejected (TypeError safeParse_of_undefined), w)) by reflexivity.
  split; [reflexivity | split; [exact Hrun |]].
  rewrite Hrun. discriminate.
Qed.

(** C2: when [method] is registered with [spec] and the validator accepts
    [input] with the typed value [data], the call is one run of the
    implementation on [data]: it has the implementation's outcome and
    effect, so it fulfils with [output] when the implementation does, and a
    spy on the service records the single call [(method, data)]. *)
Theorem callApiMethodSafe_success service method spec input data :
  service !! method = Some spec →
  Schema.safeParse (ApiMethodSpec.input spec) input = SafeParseSuccess data →
  (∀ w, callApiMethodSafe service method input w = ApiMethodSpec.method spec data w)
  ∧ (∀ w output w',
       ApiMethodSpec.method spec data w = (Fulfilled output, w') →
       callApiMethodSafe service method input w = (Fulfilled output, w'))
  ∧ (∀ calls w,
       callApiMethodSafe (spyOn service) method input (calls, w)
       = ((ApiMethodSpec.method spec data w).1,
          (calls ++ [(method, data)], (ApiMethodSpec.method spec data w).2))).
Proof.
  intros Hspec Hvalid.
  assert (Hrun : ∀ w, callApiMethodSafe service method input w
                      = ApiMethodSpec.method spec data w).
  { intros w. by rewrite (callApiMethodSafe_registered _ _ _ _ _ Hspec), Hvalid. }
  split; [exact Hrun | split].
  - intros w output w' Hout. by rewrite Hrun.
  - intros calls w. by rewrite (callApiMethodSafe_spyOn _ _ _ _ _ _ Hspec), Hvalid.
Qed.

(** C3: when [method] is registered with [spec] and the validator rejects
    [input] with [error], the call is rejected with the error
    [Validation failed: ] followed by the validator's message, in a world
    left as it was; a spy on the service records no call, and the outcome is
    the same whatever implementation is registered with the validator. *)
Theorem callApiMethodSafe_validation_failed service method spec input error :
  service !! method = Some spec →
  Schema.safeParse (ApiMethodSpec.input spec) input = SafeParseError error →
  (∀ w, callApiMethodSafe service method input w
        = (Rejected (Error ("Validation failed: " +:+ ZodError.message error)), w))
  ∧ (∀ calls w,
       callApiMethodSafe (spyOn service) method input (calls, w)
       = (Rejected (Error ("Validation failed: " +:+ ZodError.message error)),
          (calls, w)))
  ∧ (∀ implementation w,
       callApiMethodSafe
         (<[method := ApiMethodSpec.mk (ApiMethodSpec.input spec) implementation]> service)
         method input w
       = (Rejected (Error ("Validation failed: " +:+ ZodError.message error)), w)).
Proof.
  intros Hspec Hinvalid. split; [| split].
  - intros w. by rewrite (callApiMethodSafe_registered _ _ _ _ _ Hspec), Hinvalid.
  - intros calls w. by rewrite (callApiMethodSafe_spyOn _ _ _ _ _ _ Hspec), Hinvalid.
  - intros implementation w.
    erewrite callApiMethodSafe_registered by apply lookup_insert_eq.
    simpl. by rewrite Hinvalid.
Qed.

(** C7: when the [in] test rejects [method], or [method] is registered and
    its validator rejects [input], every run is rejected with one and the
    same [Error], whatever the world it starts in, and leaves that world as
    it was; so two runs have the same outcome. *)
Theorem callApiMethodSafe_failure_deterministic service method input :
  has_property method service = false
  ∨ (∃ spec error,
       service !! method = Some spec
       ∧ Schema.safeParse (ApiMethodSpec.input spec) input = SafeParseError error) →
  ∃ message,
    (∀ w, callApiMethodSafe service method input w = (Rejected (Error message), w))
    ∧ (∀ w1 w2, (callApiMethodSafe service method input w1).1
                = (callApiMethodSafe service method input w2).1).
Proof.
  intros [Hin | (spec & error & Hspec & Hinvalid)].
  - exists ("Unrecognized method name " +:+ method).
    split; intros; by rewrite !callApiMethodSafe_unrecognized.
  - exists ("Validation failed: " +:+ ZodError.message error).
    split; intros;
      by rewrite !(callApiMethodSafe_registered _ _ _ _ _ Hspec), Hinvalid.
Qed.

(** C8: a call leaves the world as it was, or as the one run of the
    implementation on the validated input left it.  So when the registry is
    itself part of the world (read from it by [registry]) and no registered
    implementation modifies it, the registry after the call is the registry
    before it, whether the call is fulfilled or rejected. *)
Theorem callApiMethodSafe_registry_unchanged (registry : W → ApiService W)
    method input w :
  (∀ name spec data,
     registry w !! name = Some spec →
     registry (ApiMethodSpec.method spec data w).2 = registry w) →
  registry (callApiMethodSafe (registry w) method input w).2 = registry w
  ∧ ((callApiMethodSafe (registry w) method input w).2 = w
     ∨ ∃ spec data,
         registry w !! method = Some spec
         ∧ Schema.safeParse (ApiMethodSpec.input spec) input = SafeParseSuccess data
         ∧ (callApiMethodSafe (registry w) method input w).2
           = (ApiMethodSpec.method spec data w).2).
Proof.
  intros Hpreserved.
  assert (Hframe :
    (callApiMethodSafe (registry w) method input w).2 = w
    ∨ ∃ spec data,
        registry w !! method = Some spec
        ∧ Schema.safeParse (ApiMethodSpec.input spec) input = SafeParseSuccess data
        ∧ (callApiMethodSafe (registry w) method input w).2
          = (ApiMethodSpec.method spec data w).2).
  { destruct (registry w !! method) as [spec|] eqn:Hspec.
    - rewrite (callApiMethodSafe_registered _ _ _ _ _ Hspec).
      destruct (Schema.safeParse _ input) as [data|error] eqn:Hparse.
      + right. by exists spec, data.
      + by left.
    - left. unfold callApiMethodSafe. rewrite Hspec.
      by destruct (negb _). }
  split; [| exact Hframe].
  destruct Hframe as [-> | (spec & data & Hspec & _ & ->)]; [done |].
  by eapply Hpreserved.
Qed.

End outcomes.

(** * The claims about the math service *)

Section scenarios.
Context {W : Type}.
Implicit Types (properties : gmap string JsValue) (a b : number) (w : W).

(** C4: [add] on [{augend: "two", addend: 2}] is rejected with
    [Validation failed: ] and the one issue that [augend] is a string where
    a number is expected; [add] on [{augend: 2}] is rejected with
    [Validation failed: ] and the one issue that [addend] is required. *)
Theorem callApiMethodSafe_add_invalid w :
  callApiMethodSafe mathService "add"
    (JsObject {[ "augend" := JsString "two"; "addend" := JsNumber 2 ]}) w
  = (Rejected (Error ("Validation failed: " +:+ JSON.stringify_issues
       [ZodIssue.invalid_type zpt_number zpt_string ["augend"]
          "Expected number, received string"])), w)
  ∧ callApiMethodSafe mathService "add" (JsObject {[ "augend" := JsNumber 2 ]}) w
  = (Rejected (Error ("Validation failed: " +:+ JSON.stringify_issues
       [ZodIssue.invalid_type zpt_number zpt_undefined ["addend"] "Required"])), w).
Proof. split; reflexivity. Qed.

(** C5: [add] on [{augend: 2, addend: 2}] is fulfilled with [{sum: 4}], and
    the implementation of [add] on [{augend: a, addend: b}] returns
    [{sum: a + b}] for all numbers [a] and [b]. *)
Theorem callApiMethodSafe_add w :
  callApiMethodSafe mathService "add"
    (JsObject {[ "augend" := JsNumber 2; "addend" := JsNumber 2 ]}) w
  = (Fulfilled (JsObject {[ "sum" := JsNumber 4 ]}), w)
  ∧ ∀ a b,
      ApiMethodSpec.method add
        (JsObject {[ "augend" := JsNumber a; "addend" := JsNumber b ]}) w
      = (Fulfilled (JsObject {[ "sum" := JsNumber (a + b) ]}), w).
Proof. split; [reflexivity | intros a b; apply add_method]. Qed.

(** C6: [subtract] on [{minuend: 10, subtrahend: 3}] is fulfilled with
    [{difference: 7}], and the implementation of [subtract] on
    [{minuend: a, subtrahend: b}] returns [{difference: a - b}] for all
    numbers [a] and [b]. *)
Theorem callApiMethodSafe_subtract w :
  callApiMethodSafe mathService "subtract"
    (JsObject {[ "minuend" := JsNumber 10; "subtrahend" := JsNumber 3 ]}) w
  = (Fulfilled (JsObject {[ "difference" := JsNumber 7 ]}), w)
  ∧ ∀ a b,
      ApiMethodSpec.method subtract
        (JsObject {[ "minuend" := JsNumber a; "subtrahend" := JsNumber b ]}) w
      = (Fulfilled (JsObject {[ "difference" := JsNumber (a - b) ]}), w).
Proof. split; [reflexivity | intros a b; apply subtract_method]. Qed.

(** C9: when the schema of [add] (of [subtract]) accepts an object, the
    parsed value is the object of its two declared properties alone, and it
    is this value that a spy sees the implementation called with; two
    objects with the same declared properties give the same run; and [add]
    on [{augend: 2, addend: 2, extra: 1}] is fulfilled with [{sum: 4}]. *)
Theorem callApiMethodSafe_strips_undeclared properties properties' :
  (∀ data,
     Schema.safeParse (ApiMethodSpec.input (add (W:=W))) (JsObject properties)
     = SafeParseSuccess data →
     ∃ a b,
       properties !! "augend" = Some (JsNumber a)
       ∧ properties !! "addend" = Some (JsNumber b)
       ∧ data = JsObject {[ "augend" := JsNumber a; "addend" := JsNumber b ]}
       ∧ ∀ calls w,
           callApiMethodSafe (spyOn mathService) "add" (JsObject properties) (calls, w)
           = (Fulfilled (JsObject {[ "sum" := JsNumber (a + b) ]}),
              (calls ++ [("add", data)], w)))
  ∧ (∀ data,
     Schema.safeParse (ApiMethodSpec.input (subtract (W:=W))) (JsObject properties)
     = SafeParseSuccess data →
     ∃ a b,
       properties !! "minuend" = Some (JsNumber a)
       ∧ properties !! "subtrahend" = Some (JsNumber b)
       ∧ data = JsObject {[ "minuend" := JsNumber a; "subtrahend" := JsNumber b ]}
       ∧ ∀ calls w,
           callApiMethodSafe (spyOn mathService) "subtract" (JsObject properties) (calls, w)
           = (Fulfilled (JsObject {[ "difference" := JsNumber (a - b) ]}),
              (calls ++ [("subtract", data)], w)))
  ∧ (properties !! "augend" = properties' !! "augend" →
     properties !! "addend" = properties' !! "addend" →
     ∀ w, callApiMethodSafe mathService "add" (JsObject properties) w
          = callApiMethodSafe mathService "add" (JsObject properties') w)
  ∧ (properties !! "minuend" = properties' !! "minuend" →
     properties !! "subtrahend" = properties' !! "subtrahend" →
     ∀ w, callApiMethodSafe mathService "subtract" (JsObject properties) w
          = callApiMethodSafe mathService "subtract" (JsObject properties') w)
  ∧ (∀ w, callApiMethodSafe mathService "add"
            (JsObject {[ "augend" := JsNumber 2; "addend" := JsNumber 2;
                         "extra" := JsNumber 1 ]}) w
          = (Fulfilled (JsObject {[ "sum" := JsNumber 4 ]}), w)).
Proof.
  repeat split.
  - intros data Hparse.
    destruct (add_input_typed _ _ Hparse) as (? & a & b & [= <-] & Ha & Hb & ->).
    exists a, b. repeat split; try done. intros calls w.
    by rewrite (callApiMethodSafe_spyOn _ _ _ _ _ _ mathService_add), Hparse.
  - intros data Hparse.
    destruct (subtract_input_typed _ _ Hparse) as (? & a & b & [= <-] & Ha & Hb & ->).
    exists a, b. repeat split; try done. intros calls w.
    by rewrite (callApiMethodSafe_spyOn _ _ _ _ _ _ mathService_subtract), Hparse.
  - intros Haugend Haddend w.
    rewrite !(callApiMethodSafe_registered _ _ _ _ _ mathService_add).
    by rewrite (add_safeParse_ext _ _ Haugend Haddend).
  - intros Hminuend Hsubtrahend w.
    rewrite !(callApiMethodSafe_registered _ _ _ _ _ mathService_subtract).
    by rewrite (subtract_safeParse_ext _ _ Hminuend Hsubtrahend).
Qed.

End scenarios.

(** * Examples of the claims with hypotheses *)

(** [tick] is registered on the counter service and its validator accepts
    [7]: the call runs [tick] once, which moves the counter from 0 to 1. *)
Lemma callApiMethodSafe_success_witness :
  counterService !! "tick" = Some tick
  ∧ Schema.safeParse (ApiMethodSpec.input tick) (JsNumber 7) = SafeParseSuccess (JsNumber 7)
  ∧ callApiMethodSafe counterService "tick" (JsNumber 7) 0 = (Fulfilled (JsNumber 7), 1)
  ∧ callApiMethodSafe (spyOn counterService) "tick" (JsNumber 7) ([], 0)
    = (Fulfilled (JsNumber 7), ([("tick", JsNumber 7)], 1)).
Proof.
  split; [reflexivity |]. split; [reflexivity |].
  destruct (callApiMethodSafe_success counterService "tick" tick
              (JsNumber 7) (JsNumber 7) eq_refl eq_refl) as (Hrun & _ & Hspy).
  split; [apply Hrun | apply Hspy].
Defined.

(** The validator of [tick] rejects a string: the counter stays at 0 and
    the spy records nothing. *)
Lemma callApiMethodSafe_validation_failed_witness :
  counterService !! "tick" = Some tick
  ∧ Schema.safeParse (ApiMethodSpec.input tick) (JsString "7")
    = SafeParseError (new_ZodError
        [ZodIssue.invalid_type zpt_number zpt_string [] "Expected number, received string"])
  ∧ (callApiMethodSafe counterService "tick" (JsString "7") 0).2 = 0
  ∧ (callApiMethodSafe (spyOn counterService) "tick" (JsString "7") ([], 0)).2 = ([], 0).
Proof.
  split; [reflexivity |]. split; [reflexivity |].
  destruct (callApiMethodSafe_validation_failed counterService "tick" tick
              (JsString "7") _ eq_refl eq_refl) as (Hrun & Hspy & _).
  split; [by rewrite Hrun | by rewrite Hspy].
Defined.

(** An unregistered name on the math service, and a rejected input of the
    counter service, give the same rejection from any two counters. *)
Lemma callApiMethodSafe_failure_deterministic_witness :
  has_property "multiply" (mathService (W:=nat)) = false
  ∧ (callApiMethodSafe mathService "multiply" JsNull 0).1
    = (callApiMethodSafe mathService "multiply" JsNull 5).1
  ∧ (callApiMethodSafe counterService "tick" (JsString "7") 0).1
    = (callApiMethodSafe counterService "tick" (JsString "7") 5).1.
Proof.
  split; [reflexivity |]. split.
  - destruct (callApiMethodSafe_failure_deterministic (W:=nat) mathService
                "multiply" JsNull (or_introl eq_refl)) as (message & _ & Hsame).
    apply Hsame.
  - destruct (callApiMethodSafe_failure_deterministic counterService
                "tick" (JsString "7")
                (or_intror (ex_intro _ tick (ex_intro _ _ (conj eq_refl eq_refl)))))
      as (message & _ & Hsame).
    apply Hsame.
Defined.

(** A world that holds the counter and a registry that does not depend on
    it: [tick] moves the counter and the registry stays. *)
Lemma callApiMethodSafe_registry_unchanged_witness :
  (∀ name spec data,
     counterService !! name = Some spec →
     (λ _ : nat, counterService) (ApiMethodSpec.method spec data 0).2 = counterService)
  ∧ (callApiMethodSafe counterService "tick" (JsNumber 7) 0).2 = 1
  ∧ (λ _ : nat, counterService) (callApiMethodSafe counterService "tick" (JsNumber 7) 0).2
    = counterService.
Proof.
  split; [reflexivity |]. split; [reflexivity |].
  apply (callApiMethodSafe_registry_unchanged (λ _ : nat, counterService)
           "tick" (JsNumber 7) 0).
  reflexivity.
Defined.

(** [{augend: 2, addend: 2, extra: 1}] and [{augend: 2, addend: 2}] have the
    same declared properties; the implementation is called with the
    second. *)
Lemma callApiMethodSafe_strips_undeclared_witness :
  ({[ "augend" := JsNumber 2; "addend" := JsNumber 2; "extra" := JsNumber 1 ]}
     : gmap string JsValue) !! "augend"
  = ({[ "augend" := JsNumber 2; "addend" := JsNumber 2 ]} : gmap string JsValue) !! "augend"
  ∧ callApiMethodSafe (W:=unit) mathService "add"
      (JsObject {[ "augend" := JsNumber 2; "addend" := JsNumber 2; "extra" := JsNumber 1 ]}) ()
    = callApiMethodSafe mathService "add"
        (JsObject {[ "augend" := JsNumber 2; "addend" := JsNumber 2 ]}) ()
  ∧ callApiMethodSafe (spyOn (mathService (W:=unit))) "add"
      (JsObject {[ "augend" := JsNumber 2; "addend" := JsNumber 2; "extra" := JsNumber 1 ]})
      ([], ())
    = (Fulfilled (JsObject {[ "sum" := JsNumber 4 ]}),
       ([("add", JsObject {[ "augend" := JsNumber 2; "addend" := JsNumber 2 ]})], ())).
Proof.
  split; [reflexivity |].
  destruct (callApiMethodSafe_strips_undeclared (W:=unit)
              {[ "augend" := JsNumber 2; "addend" := JsNumber 2; "extra" := JsNumber 1 ]}
              {[ "augend" := JsNumber 2; "addend" := JsNumber 2 ]})
    as (Hadd & _ & Hsame & _ & _).
  split; [apply Hsame; reflexivity |].
  destruct (Hadd _ eq_refl) as (a & b & Ha & Hb & _ & Hspy).
  injection Ha as <-. injection Hb as <-. apply Hspy.
Defined.

(** * Further properties

    Of the dispatcher in every case, of the math service as a whole, of
    [callApiMethod], and of the server's middleware. *)

Section dispatcher_cases.
Context {W : Type}.
Implicit Types (service : ApiService W) (spec : ApiMethodSpec W).
Implicit Types (method : string) (input data output : JsValue) (w : W).

(** X1: a name that is not registered but is a property name of
    [Object.prototype] passes the [in] test of every service: the call is
    rejected with the [TypeError] of reading [safeParse] on [undefined],
    not as an unrecognized name; the world is left as it was and a spy
    records no call. *)
Theorem callApiMethodSafe_inherited_name service method input :
  service !! method = None → method ∈ Object_prototype →
  (∀ w, callApiMethodSafe service method input w
        = (Rejected (TypeError safeParse_of_undefined), w))
  ∧ (∀ calls w, callApiMethodSafe (spyOn service) method input (calls, w)
        = (Rejected (TypeError safeParse_of_undefined), (calls, w))).
Proof.
  intros Hnone Hin. split.
  - intros w. by apply callApiMethodSafe_inherited.
  - intros calls w. apply callApiMethodSafe_inherited; [| done].
    by rewrite spyOn_lookup, Hnone.
Qed.

(** X2: a call is fulfilled only as the implementation registered under the
    requested name was: the name is registered, its validator accepted the
    input, and the implementation, run on the validated data from the same
    world, was fulfilled with that output in that final world. *)
Theorem callApiMethodSafe_fulfilled_inv service method input w output w' :
  callApiMethodSafe service method input w = (Fulfilled output, w') →
  ∃ spec data,
    service !! method = Some spec
    ∧ Schema.safeParse (ApiMethodSpec.input spec) input = SafeParseSuccess data
    ∧ ApiMethodSpec.method spec data w = (Fulfilled output, w').
Proof.
  destruct (service !! method) as [spec|] eqn:Hspec.
  - rewrite (callApiMethodSafe_registered _ _ _ _ _ Hspec).
    destruct (Schema.safeParse _ input) as [data|error] eqn:Hparse; [| done].
    intros Hrun. by exists spec, data.
  - unfold callApiMethodSafe. rewrite Hspec. by destruct (negb _).
Qed.


(** X4: a call looks at the entry of the requested name only: registering
    or replacing a method under another name, or deleting another name,
    does not change the call. *)
Theorem callApiMethodSafe_other_names service name spec method input w :
  name ≠ method →
  (callApiMethodSafe (<[name := spec]> service) method input w
   = callApiMethodSafe service method input w)
  ∧ (callApiMethodSafe (delete name service) method input w
     = callApiMethodSafe service method input w).
Proof.
  intros Hne. unfold callApiMethodSafe, has_property.
  by rewrite lookup_insert_ne, lookup_delete_ne.
Qed.

End dispatcher_cases.

Section dispatcher_spies.
Context {W : Type}.
Implicit Types (service : ApiService W) (spec : ApiMethodSpec W).
Implicit Types (method : string) (input data output : JsValue) (w : W).

(** X5: whatever the service, the name and the input, a spy sees the
    outcome and the world of the plain call, and records at most one call:
    none, or one call of the implementation registered under the requested
    name, on the data its validator returned. *)
Theorem callApiMethodSafe_at_most_one_call service method input calls w :
  ∃ invoked,
    callApiMethodSafe (spyOn service) method input (calls, w)
    = ((callApiMethodSafe service method input w).1,
       (calls ++ invoked, (callApiMethodSafe service method input w).2))
    ∧ (invoked = []
       ∨ ∃ spec data,
           service !! method = Some spec
           ∧ Schema.safeParse (ApiMethodSpec.input spec) input = SafeParseSuccess data
           ∧ invoked = [(method, data)]).
Proof.
  destruct (service !! method) as [spec|] eqn:Hspec.
  - rewrite (callApiMethodSafe_spyOn _ _ _ _ _ _ Hspec).
    rewrite (callApiMethodSafe_registered _ _ _ _ _ Hspec).
    destruct (Schema.safeParse _ input) as [data|error] eqn:Hparse.
    + exists [(method, data)]. split; [done |]. right. by exists spec, data.
    + exists []. by rewrite app_nil_r; split; [| left].
  - exists []. rewrite app_nil_r. split; [| by left].
    unfold callApiMethodSafe, has_property. rewrite spyOn_lookup, Hspec. simpl.
    by destruct (negb _).
Qed.

End dispatcher_spies.

Section math_cases.
Context {W : Type}.
Implicit Types (properties : gmap string JsValue) (a b : number) (w : W).
Implicit Types (method : string) (input data output : JsValue).

Lemma mathService_lookup_Some method (spec : ApiMethodSpec W) :
  mathService !! method = Some spec →
  (method = "add" ∧ spec = add) ∨ (method = "subtract" ∧ spec = subtract).
Proof.
  unfold mathService. rewrite lookup_insert_Some, lookup_singleton_Some.
  intros [[<- <-] | [_ [<- <-]]]; [by left | by right].
Qed.

(** X6: the schema of [add] accepts exactly the objects whose [augend] and
    [addend] are numbers other than NaN (anything else, NaN included, is
    rejected), and then returns the object of these two properties alone;
    the same for [subtract] with [minuend] and [subtrahend]. *)
Theorem add_subtract_accept_iff input data :
  (Schema.safeParse (ApiMethodSpec.input (add (W:=W))) input = SafeParseSuccess data
   ↔ ∃ properties a b,
       input = JsObject properties
       ∧ properties !! "augend" = Some (JsNumber a)
       ∧ properties !! "addend" = Some (JsNumber b)
       ∧ PrimFloat.is_nan a = false ∧ PrimFloat.is_nan b = false
       ∧ data = JsObject {[ "augend" := JsNumber a; "addend" := JsNumber b ]})
  ∧ (Schema.safeParse (ApiMethodSpec.input (subtract (W:=W))) input = SafeParseSuccess data
     ↔ ∃ properties a b,
         input = JsObject properties
         ∧ properties !! "minuend" = Some (JsNumber a)
         ∧ properties !! "subtrahend" = Some (JsNumber b)
         ∧ PrimFloat.is_nan a = false ∧ PrimFloat.is_nan b = false
         ∧ data = JsObject {[ "minuend" := JsNumber a; "subtrahend" := JsNumber b ]}).
Proof.
  cbn [add subtract createApiMethod ApiMethodSpec.input schema_of_zod Schema.safeParse].
  split; split.
  - intros Hparse.
    destruct (safeParse_number_pair_inv _ _ _ _ Hparse)
      as (properties & a & b & -> & Ha & Hb & Hnana & Hnanb).
    exists properties, a, b. repeat split; try done.
    rewrite (safeParse_number_pair _ _ _ a b) in Hparse by done.
    by injection Hparse as <-.
  - intros (properties & a & b & -> & Ha & Hb & Hnana & Hnanb & ->).
    by rewrite (safeParse_number_pair _ _ _ a b).
  - intros Hparse.
    destruct (safeParse_number_pair_inv _ _ _ _ Hparse)
      as (properties & a & b & -> & Ha & Hb & Hnana & Hnanb).
    exists properties, a, b. repeat split; try done.
    rewrite (safeParse_number_pair _ _ _ a b) in Hparse by done.
    by injection Hparse as <-.
  - intros (properties & a & b & -> & Ha & Hb & Hnana & Hnanb & ->).
    by rewrite (safeParse_number_pair _ _ _ a b).
Qed.

(** X7: no call on the math service changes the world, whatever the name
    and the input, fulfilled or rejected. *)
Theorem mathService_world_unchanged method input w :
  (callApiMethodSafe mathService method input w).2 = w.
Proof.
  destruct (mathService (W:=W) !! method) as [spec|] eqn:Hspec.
  - rewrite (callApiMethodSafe_registered _ _ _ _ _ Hspec).
    destruct (Schema.safeParse _ input); [| done].
    by destruct (mathService_lookup_Some _ _ Hspec) as [[_ ->] | [_ ->]].
  - unfold callApiMethodSafe. rewrite Hspec. by destruct (negb _).
Qed.

(** What a fulfilled call on the math service was asked, and its output. *)
Lemma mathService_fulfilled_inv method input w output w' :
  callApiMethodSafe mathService method input w = (Fulfilled output, w') →
  w' = w
  ∧ ∃ properties a b,
      input = JsObject properties
      ∧ PrimFloat.is_nan a = false ∧ PrimFloat.is_nan b = false
      ∧ ((method = "add"
          ∧ properties !! "augend" = Some (JsNumber a)
          ∧ properties !! "addend" = Some (JsNumber b)
          ∧ output = JsObject {[ "sum" := JsNumber (a + b) ]})
         ∨ (method = "subtract"
            ∧ properties !! "minuend" = Some (JsNumber a)
            ∧ properties !! "subtrahend" = Some (JsNumber b)
            ∧ output = JsObject {[ "difference" := JsNumber (a - b) ]})).
Proof.
  destruct (mathService (W:=W) !! method) as [spec|] eqn:Hspec; cycle 1.
  { unfold callApiMethodSafe. rewrite Hspec. by destruct (negb _). }
  rewrite (callApiMethodSafe_registered _ _ _ _ _ Hspec).
  destruct (Schema.safeParse _ input) as [data|error] eqn:Hparse; [| done].
  destruct (mathService_lookup_Some _ _ Hspec) as [[-> ->] | [-> ->]].
  - destruct (add_input_typed _ _ Hparse) as (properties & a & b & -> & Ha & Hb & ->).
    cbn [add createApiMethod ApiMethodSpec.input schema_of_zod Schema.safeParse] in Hparse.
    destruct (safeParse_number_pair_inv _ _ _ _ Hparse)
      as (? & a' & b' & [= <-] & Ha' & Hb' & Hnana & Hnanb).
    rewrite Ha in Ha'. rewrite Hb in Hb'. simplify_eq.
    rewrite add_method. intros [= <- <-]. split; [done |].
    exists properties, a', b'. repeat split; try done. by left.
  - destruct (subtract_input_typed _ _ Hparse) as (properties & a & b & -> & Ha & Hb & ->).
    cbn [subtract createApiMethod ApiMethodSpec.input schema_of_zod Schema.safeParse] in Hparse.
    destruct (safeParse_number_pair_inv _ _ _ _ Hparse)
      as (? & a' & b' & [= <-] & Ha' & Hb' & Hnana & Hnanb).
    rewrite Ha in Ha'. rewrite Hb in Hb'. simplify_eq.
    rewrite subtract_method. intros [= <- <-]. split; [done |].
    exists properties, a', b'. repeat split; try done. by right.
Qed.

(** X8: a call on the math service is fulfilled exactly when the name is
    [add] or [subtract] and the input is an object with numbers other than
    NaN at the two declared properties; the output is then [{sum: a + b}],
    respectively [{difference: a - b}], and the world is as it was. *)
Theorem mathService_fulfilled_iff method input w output w' :
  callApiMethodSafe mathService method input w = (Fulfilled output, w')
  ↔ w' = w
    ∧ ∃ properties a b,
        input = JsObject properties
        ∧ PrimFloat.is_nan a = false ∧ PrimFloat.is_nan b = false
        ∧ ((method = "add"
            ∧ properties !! "augend" = Some (JsNumber a)
            ∧ properties !! "addend" = Some (JsNumber b)
            ∧ output = JsObject {[ "sum" := JsNumber (a + b) ]})
           ∨ (method = "subtract"
              ∧ properties !! "minuend" = Some (JsNumber a)
              ∧ properties !! "subtrahend" = Some (JsNumber b)
              ∧ output = JsObject {[ "difference" := JsNumber (a - b) ]})).
Proof.
  split; [apply mathService_fulfilled_inv |].
  intros (-> & properties & a & b & -> & Hnana & Hnanb
          & [(-> & Ha & Hb & ->) | (-> & Ha & Hb & ->)]).
  - by apply add_call.
  - by apply subtract_call.
Qed.

(** X9: what a schema of the math service returns passes the same schema
    unchanged, and calling the method on the validated data gives the same
    run as calling it on the original input. *)
Theorem mathService_validated_again method (spec : ApiMethodSpec W) input data :
  mathService !! method = Some spec →
  Schema.safeParse (ApiMethodSpec.input spec) input = SafeParseSuccess data →
  Schema.safeParse (ApiMethodSpec.input spec) data = SafeParseSuccess data
  ∧ ∀ w, callApiMethodSafe mathService method data w
         = callApiMethodSafe mathService method input w.
Proof.
  intros Hspec Hparse.
  assert (Hagain : Schema.safeParse (ApiMethodSpec.input spec) data = SafeParseSuccess data).
  { destruct (mathService_lookup_Some _ _ Hspec) as [[-> ->] | [-> ->]];
      cbn [add subtract createApiMethod ApiMethodSpec.input schema_of_zod Schema.safeParse] in *;
      destruct (safeParse_number_pair_inv _ _ _ _ Hparse)
        as (properties & a & b & -> & Ha & Hb & Hnana & Hnanb);
      rewrite (safeParse_number_pair _ _ _ a b) in Hparse by done;
      injection Hparse as <-;
      by rewrite (safeParse_number_pair _ _ _ a b). }
  split; [done |]. intros w.
  by rewrite !(callApiMethodSafe_registered _ _ _ _ _ Hspec), Hagain, Hparse.
Qed.

End math_cases.

Section reports.
Implicit Types (properties : gmap string JsValue).

Lemma number_parse_cases path value :
  (getParsedType value = zpt_number
   ∧ z._parse z.number path value = ([], z.OK value))
  ∨ (getParsedType value ≠ zpt_number
     ∧ z._parse z.number path value
       = ([makeIssue path zpt_number (getParsedType value)], z.INVALID)).
Proof.
  unfold z.number, z.invalid_type; cbn [z._parse].
  destruct (getParsedType value); (by left) || (by right).
Qed.

Lemma number_pair_reports key1 key2 properties key :
  key ∈ [key1; key2] →
  getParsedType (default JsUndefined (properties !! key)) ≠ zpt_number →
  ∃ error,
    z.safeParse (z.object [(key1, z.number); (key2, z.number)]) (JsObject properties)
    = SafeParseError error
    ∧ makeIssue [key] zpt_number (getParsedType (default JsUndefined (properties !! key)))
      ∈ ZodError.issues error.
Proof.
  intros Hkey Hbad.
  unfold z.safeParse, z.object; cbn [z._parse fmap list_fmap z.parsePair].
  destruct (number_parse_cases ([] ++ [key1]) (default JsUndefined (properties !! key1)))
    as [[Hok1 ->] | [Hbad1 ->]];
  destruct (number_parse_cases ([] ++ [key2]) (default JsUndefined (properties !! key2)))
    as [[Hok2 ->] | [Hbad2 ->]];
  cbn [z.mergeObjectSync];
  apply elem_of_cons in Hkey as [-> | Hkey];
  try (apply elem_of_cons in Hkey as [-> | Hkey]; [| by apply elem_of_nil in Hkey]);
  try done;
  try (destruct (_ && _)); cbn [z.mergeObjectSync];
  eexists; (split; [reflexivity |]); cbn;
  repeat first [apply list_elem_of_here | apply list_elem_of_further].
Qed.

End reports.

Section math_reports.
Context {W : Type}.
Implicit Types (properties : gmap string JsValue) (w : W).

(** X10: when a declared property of [add] or [subtract] is not a number
    (missing, NaN or of another type), the call is rejected with
    [Validation failed: ] and the validator's message, and the error lists
    an issue for this property, with the type received, whatever the other
    property is: a bad second property is reported even when the first is
    bad too. *)
Theorem mathService_reports_each_property method (spec : ApiMethodSpec W) key properties :
  mathService !! method = Some spec →
  (method, key) ∈ [("add", "augend"); ("add", "addend");
                   ("subtract", "minuend"); ("subtract", "subtrahend")] →
  getParsedType (default JsUndefined (properties !! key)) ≠ zpt_number →
  ∃ error,
    Schema.safeParse (ApiMethodSpec.input spec) (JsObject properties) = SafeParseError error
    ∧ makeIssue [key] zpt_number (getParsedType (default JsUndefined (properties !! key)))
      ∈ ZodError.issues error
    ∧ ∀ w, callApiMethodSafe mathService method (JsObject properties) w
           = (Rejected (Error ("Validation failed: " +:+ ZodError.message error)), w).
Proof.
  intros Hspec Hkey Hbad.
  assert (∃ error,
    Schema.safeParse (ApiMethodSpec.input spec) (JsObject properties) = SafeParseError error
    ∧ makeIssue [key] zpt_number (getParsedType (default JsUndefined (properties !! key)))
      ∈ ZodError.issues error) as (error & Hparse & Hissue).
  { destruct (mathService_lookup_Some _ _ Hspec) as [[-> ->] | [-> ->]];
      cbn [add subtract createApiMethod ApiMethodSpec.input schema_of_zod Schema.safeParse];
      apply number_pair_reports; [| done | | done];
      repeat (apply elem_of_cons in Hkey as [[= <-] | Hkey]; try done);
      try (by apply elem_of_nil in Hkey);
      repeat first [apply list_elem_of_here | apply list_elem_of_further]. }
  exists error. repeat split; try done. intros w.
  by rewrite (callApiMethodSafe_registered _ _ _ _ _ Hspec), Hparse.
Qed.

End math_reports.

Section convenience.
Context {W : Type}.


End convenience.

Section server.
Context {W : Type}.
Implicit Types (properties : gmap string JsValue) (w : W) (ctx : Context).

Lemma bodySpec_parse properties name :
  properties !! "method" = Some (JsString name) →
  z.parse bodySpec (JsObject properties)
  = inl (JsObject match properties !! "input" with
                  | Some input => {[ "method" := JsString name; "input" := input ]}
                  | None => {[ "method" := JsString name ]}
                  end).
Proof.
  intros Hmethod.
  unfold z.parse, z.safeParse, bodySpec, z.object;
    cbn [z._parse fmap list_fmap z.parsePair].
  rewrite Hmethod. cbn [default from_option id].
  unfold z.string, z.any; cbn [z._parse getParsedType z.mergeObjectSync].
  destruct (properties !! "input") as [input|]; cbn [default from_option id].
  - rewrite !bool_decide_true by done. cbn. by rewrite orb_true_r.
  - by rewrite (bool_decide_false (is_Some None)) by by intros [? [=]].
Qed.

Lemma bodySpec_parse_inv body data :
  z.parse bodySpec body = inl data →
  ∃ properties name, body = JsObject properties
    ∧ properties !! "method" = Some (JsString name).
Proof.
  unfold z.parse, z.safeParse, bodySpec, z.object, z.invalid_type.
  destruct body as [| |?|?|?|?|properties]; cbn [z._parse]; try discriminate.
  cbn [fmap list_fmap z.parsePair].
  destruct (properties !! "method") as [[| |?|?|name|?|?]|] eqn:Hmethod;
    cbn; try discriminate.
  - by destruct (PrimFloat.is_nan _).
  - intros _. by exists properties, name.
Qed.

(** X12: [bodySpec] accepts exactly the objects whose [method] is a string;
    [input] is optional and may be any value.  The parsed body holds
    [method], and [input] when the request has one, and nothing else. *)
Theorem bodySpec_accepts_iff body data :
  z.parse bodySpec body = inl data
  ↔ ∃ properties name,
      body = JsObject properties
      ∧ properties !! "method" = Some (JsString name)
      ∧ data = JsObject match properties !! "input" with
                        | Some input => {[ "method" := JsString name; "input" := input ]}
                        | None => {[ "method" := JsString name ]}
                        end.
Proof.
  split.
  - intros Hparse.
    destruct (bodySpec_parse_inv _ _ Hparse) as (properties & name & -> & Hmethod).
    exists properties, name. repeat split; try done.
    rewrite (bodySpec_parse _ _ Hmethod) in Hparse. by injection Hparse as <-.
  - intros (properties & name & -> & Hmethod & ->). by apply bodySpec_parse.
Qed.

(** X13: when the request body is not an object with a string [method],
    the middleware is rejected with the [ZodError] of [bodySpec], which
    lists at least one issue; the dispatcher is not reached and the world
    is left as it was. *)
Theorem middleware_invalid_body ctx :
  (∀ properties name,
     Context.request_body ctx = JsObject properties →
     properties !! "method" ≠ Some (JsString name)) →
  ∃ error,
    z.safeParse bodySpec (Context.request_body ctx) = SafeParseError error
    ∧ ZodError.issues error ≠ []
    ∧ ∀ w, middleware ctx w = (Failed (InvalidBody error), w).
Proof.
  intros Hbody. unfold middleware.
  destruct (z.parse bodySpec (Context.request_body ctx)) as [data|error] eqn:Hparse.
  { destruct (bodySpec_parse_inv _ _ Hparse) as (properties & name & Hrequest & Hmethod).
    by destruct (Hbody properties name). }
  exists error. split; [| split; [| done]].
  - unfold z.parse in Hparse.
    destruct (z.safeParse bodySpec _); [done | by injection Hparse as ->].
  - revert Hparse. clear Hbody. unfold z.parse, z.safeParse, bodySpec, z.object, z.invalid_type.
    destruct (Context.request_body ctx) as [| |?|?|?|?|properties]; cbn [z._parse];
      try (by intros [= <-]).
    cbn [fmap list_fmap z.parsePair].
    unfold z.string, z.any; cbn [z._parse].
    destruct (getParsedType (default JsUndefined (properties !! "method")));
      cbn; try (by intros [= <-]); by destruct (_ && _).
Qed.

(** X14: on a request body with a string [method], the middleware is the
    call of that method on the math service with the body's [input]
    ([undefined] when there is none); other members of the body play no
    part.  When the call is fulfilled its result becomes [ctx.body] and the
    request is untouched; when it is rejected the middleware is rejected
    with the same reason. *)
Theorem middleware_dispatches ctx properties name w :
  Context.request_body ctx = JsObject properties →
  properties !! "method" = Some (JsString name) →
  middleware ctx w
  = match callApiMethodSafe mathService name
            (default JsUndefined (properties !! "input")) w with
    | (Fulfilled result, w') => (Completed (Context.mk (JsObject properties) result), w')
    | (Rejected reason, w') => (Failed (CallRejected reason), w')
    end.
Proof.
  intros Hrequest Hmethod. unfold middleware.
  rewrite Hrequest, (bodySpec_parse _ _ Hmethod).
  by destruct (properties !! "input").
Qed.

(** X15: the middleware completes exactly for the requests
    [{method: "add", input: {augend: a, addend: b}}] and
    [{method: "subtract", input: {minuend: a, subtrahend: b}}] (possibly
    with other members) where [a] and [b] are numbers other than NaN; it
    leaves [{sum: a + b}], respectively [{difference: a - b}], in
    [ctx.body], and the world as it was. *)
Theorem middleware_completed_iff ctx w ctx' w' :
  middleware ctx w = (Completed ctx', w')
  ↔ w' = w
    ∧ ∃ properties arguments a b,
        Context.request_body ctx = JsObject properties
        ∧ properties !! "input" = Some (JsObject arguments)
        ∧ PrimFloat.is_nan a = false ∧ PrimFloat.is_nan b = false
        ∧ ((properties !! "method" = Some (JsString "add")
            ∧ arguments !! "augend" = Some (JsNumber a)
            ∧ arguments !! "addend" = Some (JsNumber b)
            ∧ ctx' = Context.mk (JsObject properties)
                       (JsObject {[ "sum" := JsNumber (a + b) ]}))
           ∨ (properties !! "method" = Some (JsString "subtract")
              ∧ arguments !! "minuend" = Some (JsNumber a)
              ∧ arguments !! "subtrahend" = Some (JsNumber b)
              ∧ ctx' = Context.mk (JsObject properties)
                         (JsObject {[ "difference" := JsNumber (a - b) ]}))).
Proof.
  split.
  - unfold middleware.
    destruct (z.parse bodySpec (Context.request_body ctx)) as [data|error] eqn:Hparse;
      [| done].
    destruct (bodySpec_parse_inv _ _ Hparse) as (properties & name & Hrequest & Hmethod).
    rewrite Hrequest in Hparse. rewrite (bodySpec_parse _ _ Hmethod) in Hparse.
    injection Hparse as <-. rewrite Hrequest.
    assert (Hcall :
      callApiMethodSafe mathService
        (string_property
           (JsObject match properties !! "input" with
                     | Some input => {[ "method" := JsString name; "input" := input ]}
                     | None => {[ "method" := JsString name ]}
                     end) "method")
        (property
           (JsObject match properties !! "input" with
                     | Some input => {[ "method" := JsString name; "input" := input ]}
                     | None => {[ "method" := JsString name ]}
                     end) "input") w
      = callApiMethodSafe mathService name (default JsUndefined (properties !! "input")) w).
    { by destruct (properties !! "input"). }
    rewrite Hcall.
    destruct (callApiMethodSafe mathService name _ w) as [[result|reason] w1] eqn:Hrun;
      [| done].
    intros [= <- <-].
    destruct (mathService_fulfilled_inv _ _ _ _ _ Hrun)
      as (-> & arguments & a & b & Hinput & Hnana & Hnanb & Hcases).
    split; [done |]. exists properties, arguments, a, b.
    split; [done |]. split.
    { destruct (properties !! "input"); by simplify_eq/=. }
    split; [done |]. split; [done |].
    destruct Hcases as [(-> & Ha & Hb & ->) | (-> & Ha & Hb & ->)]; [by left | by right].
  - intros (-> & properties & arguments & a & b & Hrequest & Hinput & Hnana & Hnanb & Hcases).
    unfold middleware. rewrite Hrequest.
    destruct Hcases as [(Hmethod & Ha & Hb & ->) | (Hmethod & Ha & Hb & ->)];
      rewrite (bodySpec_parse _ _ Hmethod), Hinput;
      cbn [string_property property];
      rewrite ?lookup_insert_eq; cbn [default from_option id].
    + assert (Hlookup : ({[ "method" := JsString "add"; "input" := JsObject arguments ]}
                  : gmap string JsValue) !! "input" = Some (JsObject arguments)) by done.
      rewrite Hlookup. cbn [default from_option id].
      by rewrite (add_call _ a b).
    + assert (Hlookup : ({[ "method" := JsString "subtract"; "input" := JsObject arguments ]}
                  : gmap string JsValue) !! "input" = Some (JsObject arguments)) by done.
      rewrite Hlookup. cbn [default from_option id].
      by rewrite (subtract_call _ a b).
Qed.

End server.

(** * Examples of the further properties with hypotheses *)

(** [valueOf] is not registered on the counter service. *)
Lemma callApiMethodSafe_inherited_name_witness :
  counterService !! "valueOf" = None
  ∧ "valueOf" ∈ Object_prototype
  ∧ callApiMethodSafe counterService "valueOf" (JsNumber 7) 0
    = (Rejected (TypeError "Cannot read properties of undefined (reading 'safeParse')"), 0).
Proof.
  assert (Hin : "valueOf" ∈ Object_prototype) by by apply (bool_decide_unpack _).
  split; [reflexivity |]. split; [exact Hin |].
  apply (callApiMethodSafe_inherited_name counterService "valueOf" (JsNumber 7)
           eq_refl Hin).
Defined.

(** A fulfilled [tick]. *)
Lemma callApiMethodSafe_fulfilled_inv_witness :
  callApiMethodSafe counterService "tick" (JsNumber 7) 0 = (Fulfilled (JsNumber 7), 1)
  ∧ ∃ spec data,
      counterService !! "tick" = Some spec
      ∧ Schema.safeParse (ApiMethodSpec.input spec) (JsNumber 7) = SafeParseSuccess data
      ∧ ApiMethodSpec.method spec data 0 = (Fulfilled (JsNumber 7), 1).
Proof.
  split; [reflexivity |].
  apply (callApiMethodSafe_fulfilled_inv counterService "tick" (JsNumber 7) 0
           (JsNumber 7) 1 eq_refl).
Defined.


(** Registering [multiply] on the math service, or deleting [subtract],
    leaves a call of [add] as it was. *)
Lemma callApiMethodSafe_other_names_witness :
  "multiply" ≠ "add"
  ∧ callApiMethodSafe (<["multiply" := subtract]> mathService) "add"
      (JsObject {[ "augend" := JsNumber 2; "addend" := JsNumber 2 ]}) ()
    = callApiMethodSafe mathService "add"
        (JsObject {[ "augend" := JsNumber 2; "addend" := JsNumber 2 ]}) ().
Proof.
  assert (Hne : "multiply" ≠ "add") by discriminate.
  split; [exact Hne |].
  apply (callApiMethodSafe_other_names (W:=unit) mathService "multiply" subtract "add"
           _ () Hne).
Defined.

(** The validated data of a request with an extra property. *)
Lemma mathService_validated_again_witness :
  mathService (W:=unit) !! "add" = Some add
  ∧ Schema.safeParse (ApiMethodSpec.input (add (W:=unit)))
      (JsObject {[ "augend" := JsNumber 2; "addend" := JsNumber 2; "extra" := JsNumber 1 ]})
    = SafeParseSuccess (JsObject {[ "augend" := JsNumber 2; "addend" := JsNumber 2 ]})
  ∧ Schema.safeParse (ApiMethodSpec.input (add (W:=unit)))
      (JsObject {[ "augend" := JsNumber 2; "addend" := JsNumber 2 ]})
    = SafeParseSuccess (JsObject {[ "augend" := JsNumber 2; "addend" := JsNumber 2 ]}).
Proof.
  assert (Hparse :
    Schema.safeParse (ApiMethodSpec.input (add (W:=unit)))
      (JsObject {[ "augend" := JsNumber 2; "addend" := JsNumber 2; "extra" := JsNumber 1 ]})
    = SafeParseSuccess (JsObject {[ "augend" := JsNumber 2; "addend" := JsNumber 2 ]}))
    by reflexivity.
  split; [reflexivity |]. split; [exact Hparse |].
  apply (mathService_validated_again (W:=unit) "add" add _ _ eq_refl Hparse).
Defined.

(** [{augend: "two"}]: both properties are reported, [addend] as missing. *)
Lemma mathService_reports_each_property_witness :
  mathService (W:=unit) !! "add" = Some add
  ∧ ("add", "addend") ∈ [("add", "augend"); ("add", "addend");
                         ("subtract", "minuend"); ("subtract", "subtrahend")]
  ∧ getParsedType (default JsUndefined
       (({[ "augend" := JsString "two" ]} : gmap string JsValue) !! "addend")) ≠ zpt_number
  ∧ ∃ error,
      Schema.safeParse (ApiMethodSpec.input (add (W:=unit)))
        (JsObject {[ "augend" := JsString "two" ]}) = SafeParseError error
      ∧ makeIssue ["addend"] zpt_number zpt_undefined ∈ ZodError.issues error
      ∧ ∀ w : unit,
          callApiMethodSafe mathService "add" (JsObject {[ "augend" := JsString "two" ]}) w
          = (Rejected (Error ("Validation failed: " +:+ ZodError.message error)), w).
Proof.
  assert (Hkey : ("add", "addend") ∈ [("add", "augend"); ("add", "addend");
                   ("subtract", "minuend"); ("subtract", "subtrahend")]).
  { apply list_elem_of_further, list_elem_of_here. }
  assert (Hbad : getParsedType (default JsUndefined
       (({[ "augend" := JsString "two" ]} : gmap string JsValue) !! "addend")) ≠ zpt_number)
    by discriminate.
  split; [reflexivity |]. split; [exact Hkey |]. split; [exact Hbad |].
  apply (mathService_reports_each_property (W:=unit) "add" add "addend"
           {[ "augend" := JsString "two" ]} eq_refl Hkey Hbad).
Defined.

(** A request whose body is [null]. *)
Lemma middleware_invalid_body_witness :
  (∀ properties name,
     JsNull = JsObject properties → properties !! "method" ≠ Some (JsString name))
  ∧ ∃ error,
      z.safeParse bodySpec JsNull = SafeParseError error
      ∧ ZodError.issues error ≠ []
      ∧ ∀ w : unit, middleware (Context.mk JsNull JsUndefined) w
                    = (Failed (InvalidBody error), w).
Proof.
  assert (Hbody : ∀ properties name,
     JsNull = JsObject properties → properties !! "method" ≠ Some (JsString name))
    by discriminate.
  split; [exact Hbody |].
  apply (middleware_invalid_body (W:=unit) (Context.mk JsNull JsUndefined) Hbody).
Defined.

(** The request of the client, [{method: "add", input: {augend: 2, addend: 2}}]. *)
Lemma middleware_dispatches_witness :
  ({[ "method" := JsString "add";
      "input" := JsObject {[ "augend" := JsNumber 2; "addend" := JsNumber 2 ]} ]}
     : gmap string JsValue) !! "method" = Some (JsString "add")
  ∧ middleware
      (Context.mk
         (JsObject {[ "method" := JsString "add";
                      "input" := JsObject {[ "augend" := JsNumber 2; "addend" := JsNumber 2 ]} ]})
         JsUndefined) ()
    = (Completed
         (Context.mk
            (JsObject {[ "method" := JsString "add";
                         "input" := JsObject {[ "augend" := JsNumber 2; "addend" := JsNumber 2 ]} ]})
            (JsObject {[ "sum" := JsNumber 4 ]})), ()).
Proof.
  assert (Hmethod :
    ({[ "method" := JsString "add";
        "input" := JsObject {[ "augend" := JsNumber 2; "addend" := JsNumber 2 ]} ]}
       : gmap string JsValue) !! "method" = Some (JsString "add")) by reflexivity.
  split; [exact Hmethod |].
  rewrite (middleware_dispatches (W:=unit)
             (Context.mk
                (JsObject {[ "method" := JsString "add";
                             "input" := JsObject {[ "augend" := JsNumber 2;
                                                    "addend" := JsNumber 2 ]} ]})
                JsUndefined) _ "add" () eq_refl Hmethod).
  reflexivity.
Defined.
